(** * go-kik: the Kik bot API client (kik/kik.go)

    A shallow embedding of the client of [kik/kik.go]: the constructor
    [NewKikClient], the six request operations and the webhook signature
    check [VerifySignature], together with models of the Go standard
    library functions they call ([strings.HasSuffix], [hex.EncodeToString],
    [crypto/sha1], [crypto/hmac], [Request.SetBasicAuth]). *)

From Stdlib Require Import ZArith Lia Bool List.
From Stdlib.Strings Require Import Ascii String Byte.
From stdpp Require Import base option list gmap strings.

(** ** Go values

    A Go [string] is an immutable sequence of bytes and [[]byte(s)] copies
    them out unchanged: strings are [string], byte slices are [list byte]. *)

Definition bytes_of_string (s : string) : list byte := list_byte_of_string s.
Definition string_of_bytes (b : list byte) : string := string_of_list_byte b.

Definition Z_of_byte (b : byte) : Z := Z.of_N (Byte.to_N b).

(** Conversion to [uint8]: the low eight bits. *)
Definition byte_of_Z (z : Z) : byte :=
  match Byte.of_N (Z.to_N (z mod 256)) with
  | Some b => b
  | None => x00
  end.

(** ** encoding/hex *)
Module hex.

Definition hextable : string := "0123456789abcdef".

(** [hextable[i]]; the index is [v>>4] or [v&0x0f] of a [uint8], so it is
    below 16 and the lookup never leaves the table. *)
Definition digit (i : N) : ascii :=
  match String.get (N.to_nat i) hextable with
  | Some c => c
  | None => "0"%char
  end.

(** The loop of [hex.Encode]: two table characters per source byte. *)
Fixpoint Encode (src : list byte) : string :=
  match src with
  | [] => EmptyString
  | v :: rest =>
      String (digit (N.shiftr (Byte.to_N v) 4))
        (String (digit (N.land (Byte.to_N v) 15)) (Encode rest))
  end.

Definition EncodeToString (src : list byte) : string := Encode src.

(** The characters of [hextable], as a test. *)
Definition is_lower_hex (c : ascii) : bool :=
  let n := N_of_ascii c in
  ((48 <=? n) && (n <=? 57) || (97 <=? n) && (n <=? 102))%N.

Fixpoint all_lower_hex (s : string) : bool :=
  match s with
  | EmptyString => true
  | String c rest => is_lower_hex c && all_lower_hex rest
  end.

End hex.

(** ** crypto/sha1 (FIPS 180-4, section 6.1) on 32-bit words held in [Z] *)
Module sha1.

Local Open Scope Z_scope.

Definition Size : nat := 20.
Definition BlockSize : nat := 64.

Definition wrap (x : Z) : Z := x mod 2 ^ 32.
Definition add32 (x y : Z) : Z := wrap (x + y).
Definition rotl (n : Z) (x : Z) : Z :=
  wrap (Z.lor (Z.shiftl x n) (Z.shiftr x (32 - n))).
Definition not32 (x : Z) : Z := Z.lxor x 4294967295.

(** Big-endian packing of four bytes, and its inverse. *)
Definition word_of_bytes (b0 b1 b2 b3 : Z) : Z :=
  Z.lor (Z.lor (Z.shiftl b0 24) (Z.shiftl b1 16)) (Z.lor (Z.shiftl b2 8) b3).

Definition bytes_of_word (w : Z) : list byte :=
  [ byte_of_Z (Z.shiftr w 24); byte_of_Z (Z.shiftr w 16);
    byte_of_Z (Z.shiftr w 8); byte_of_Z w ].

(** The 64-bit big-endian bit count that closes the padding. *)
Definition length_bytes (bits : Z) : list byte :=
  map (fun i => byte_of_Z (Z.shiftr bits (8 * i))) [7; 6; 5; 4; 3; 2; 1; 0].

(** Padding: 0x80, then zeros up to 56 modulo 64, then the bit count. *)
Definition pad (msg : list byte) : list byte :=
  let len := Z.of_nat (length msg) in
  let zeros := Z.to_nat ((55 - len) mod 64) in
  msg ++ x80 :: repeat x00 zeros ++ length_bytes (8 * len).

Fixpoint words (n : nat) (block : list Z) : list Z :=
  match n with
  | O => []
  | S n' =>
      match block with
      | b0 :: b1 :: b2 :: b3 :: rest => word_of_bytes b0 b1 b2 b3 :: words n' rest
      | _ => []
      end
  end.

(** The message schedule, newest word first: [w_t] is built from
    [w_(t-3)], [w_(t-8)], [w_(t-14)] and [w_(t-16)]. *)
Fixpoint schedule (n : nat) (rev_w : list Z) : list Z :=
  match n with
  | O => rev_w
  | S n' =>
      let w := rotl 1 (Z.lxor (Z.lxor (nth 2 rev_w 0) (nth 7 rev_w 0))
                              (Z.lxor (nth 13 rev_w 0) (nth 15 rev_w 0))) in
      schedule n' (w :: rev_w)
  end.

Record digest := Digest { h0 : Z; h1 : Z; h2 : Z; h3 : Z; h4 : Z }.

Definition init : digest :=
  Digest 1732584193 4023233417 2562383102 271733878 3285377520.

Definition f (t : nat) (b c d : Z) : Z :=
  if (t <? 20)%nat then Z.lor (Z.land b c) (Z.land (not32 b) d)
  else if (t <? 40)%nat then Z.lxor (Z.lxor b c) d
  else if (t <? 60)%nat then
    Z.lor (Z.lor (Z.land b c) (Z.land b d)) (Z.land c d)
  else Z.lxor (Z.lxor b c) d.

Definition K (t : nat) : Z :=
  if (t <? 20)%nat then 1518500249
  else if (t <? 40)%nat then 1859775393
  else if (t <? 60)%nat then 2400959708
  else 3395469782.

Definition round (s : digest) (tw : nat * Z) : digest :=
  let '(t, w) := tw in
  let temp :=
    add32 (add32 (add32 (add32 (rotl 5 (h0 s)) (f t (h1 s) (h2 s) (h3 s)))
                        (h4 s)) (K t)) w in
  Digest temp (h0 s) (rotl 30 (h1 s)) (h2 s) (h3 s).

Definition block (h : digest) (p : list byte) : digest :=
  let w := rev (schedule 64 (rev (words 16 (map Z_of_byte p)))) in
  let s := fold_left round (combine (seq 0 80) w) h in
  Digest (add32 (h0 h) (h0 s)) (add32 (h1 h) (h1 s)) (add32 (h2 h) (h2 s))
         (add32 (h3 h) (h3 s)) (add32 (h4 h) (h4 s)).

Fixpoint blocks (n : nat) (h : digest) (p : list byte) : digest :=
  match n with
  | O => h
  | S n' => blocks n' (block h (firstn 64 p)) (skipn 64 p)
  end.

(** [sha1.Sum]: the 20-byte checksum of the data. *)
Definition Sum (data : list byte) : list byte :=
  let p := pad data in
  let h := blocks (length p / 64) init p in
  bytes_of_word (h0 h) ++ bytes_of_word (h1 h) ++ bytes_of_word (h2 h)
    ++ bytes_of_word (h3 h) ++ bytes_of_word (h4 h).

End sha1.

(** ** crypto/hmac (RFC 2104) over SHA-1

    [hmac.New(sha1.New, key)] returns a hash object that holds the two padded
    keys and the inner SHA-1 state; a hash state is represented by the bytes
    written to it so far. *)
Module hmac.

Record HMAC := { opad : list byte; ipad : list byte; inner : list byte }.

Definition xor_byte (c : Z) (b : byte) : byte :=
  byte_of_Z (Z.lxor (Z_of_byte b) c).

(** [copy(dst, key)] into a zeroed block of [blocksize] bytes. *)
Definition copy_key (key : list byte) : list byte :=
  key ++ repeat x00 (sha1.BlockSize - length key).

Definition New (key : list byte) : HMAC :=
  let key :=
    if (sha1.BlockSize <? length key)%nat then sha1.Sum key else key in
  let ip := map (xor_byte 54) (copy_key key) in
  let op := map (xor_byte 92) (copy_key key) in
  {| opad := op; ipad := ip; inner := ip |}.

Definition Write (h : HMAC) (p : list byte) : HMAC :=
  {| opad := opad h; ipad := ipad h; inner := inner h ++ p |}.

(** [h.Sum(in)]: the digest appended to [in]. *)
Definition Sum (h : HMAC) (b : list byte) : list byte :=
  let i := sha1.Sum (inner h) in
  b ++ sha1.Sum (opad h ++ i).

End hmac.

(** The keyed digest as RFC 2104 writes it,
    [H((K' xor opad) || H((K' xor ipad) || text))], in lowercase hexadecimal. *)
Definition hmac_sha1 (K text : list byte) : list byte :=
  let K' := hmac.copy_key
              (if (64 <? length K)%nat then sha1.Sum K else K) in
  sha1.Sum (map (hmac.xor_byte 92) K'
            ++ sha1.Sum (map (hmac.xor_byte 54) K' ++ text)).

Definition hmac_sha1_hex (B : list byte) (K : string) : string :=
  hex.EncodeToString (hmac_sha1 (bytes_of_string K) B).

(** ** encoding/base64, the standard encoding with padding *)
Module base64.

Definition encodeStd : string :=
  "ABCDEFGHIJKLMNOPQRSTUVWXYZabcdefghijklmnopqrstuvwxyz0123456789+/".

Definition enc (i : Z) : ascii :=
  match String.get (Z.to_nat (Z.land i 63)) encodeStd with
  | Some c => c
  | None => "="%char
  end.

Fixpoint Encode (src : list byte) : string :=
  match src with
  | [] => EmptyString
  | [a] =>
      let v := Z.shiftl (Z_of_byte a) 16 in
      String (enc (Z.shiftr v 18)) (String (enc (Z.shiftr v 12)) "==")
  | [a; b] =>
      let v := Z.lor (Z.shiftl (Z_of_byte a) 16) (Z.shiftl (Z_of_byte b) 8) in
      String (enc (Z.shiftr v 18)) (String (enc (Z.shiftr v 12))
        (String (enc (Z.shiftr v 6)) "="))
  | a :: b :: c :: rest =>
      let v := Z.lor (Z.lor (Z.shiftl (Z_of_byte a) 16)
                            (Z.shiftl (Z_of_byte b) 8)) (Z_of_byte c) in
      String (enc (Z.shiftr v 18)) (String (enc (Z.shiftr v 12))
        (String (enc (Z.shiftr v 6)) (String (enc v) (Encode rest))))
  end.

Definition EncodeToString (src : list byte) : string := Encode src.

End base64.

(** ** strings *)
Module strings.

(** [len(s) >= len(suffix) && s[len(s)-len(suffix):] == suffix] *)
Definition HasSuffix (s suffix : string) : bool :=
  (String.length suffix <=? String.length s)%nat
  && String.eqb
       (substring (String.length s - String.length suffix)
                  (String.length suffix) s)
       suffix.

End strings.

(** ** Errors

    A Go [error] value, by where it is made. *)
Inductive error : Type :=
| Errorf (msg : string)                        (* fmt.Errorf *)
| UrlError (cause : string)                    (* returned by url.Parse *)
| EncodeError (cause : string)
| TransportError (cause : string)
| StatusError (code : Z) (body : list byte)
| DecodeError (cause : string).

(** ** net/http *)
Module http.

Record Request := {
  Method : string;
  URL : string;
  Header : gmap string (list string);
  Body : option (list byte)
}.

Record Response := { StatusCode : Z; RespBody : list byte }.

(** [base64.StdEncoding.EncodeToString([]byte(username + ":" + password))] *)
Definition basicAuth (username password : string) : string :=
  base64.EncodeToString (bytes_of_string (username +:+ ":" +:+ password)).

(** [r.Header.Set("Authorization", "Basic "+basicAuth(username, password))] *)
Definition SetBasicAuth (r : Request) (username password : string) : Request :=
  {| Method := Method r;
     URL := URL r;
     Header := <["Authorization" := ["Basic " +:+ basicAuth username password]]>
                 (Header r);
     Body := Body r |}.

End http.

(** ** What the client takes from outside

    Heap addresses; a pointer is [option loc], [None] being [nil]. *)
Definition loc := positive.

(** The URL parser and the HTTP transport are library code behind the
    client: the development is parametric in them. [Client_Do] is
    the [Do] method of [http.Client], called on the struct the handle points
    to (or on nothing, for a nil or dangling handle), acting on
    the state [Net] of everything behind the transport. [url_Resolve] is
    the text of the absolute URL made from a parsed base and a relative
    path; kik.go does not show how the two are joined, and nothing is
    assumed about it. *)
Class Platform := {
  url_URL : Type;
  url_Parse : string -> url_URL + error;
  url_Resolve : url_URL -> string -> string;
  http_Client : Type;
  http_Client_zero : http_Client;
  Net : Type;
  Client_Do : option http_Client -> http.Request -> Net
              -> Net * (http.Response + string)
}.

(** JSON encoding and decoding of a Go type; decoding writes into an
    existing value. [zero] is the type's zero value. *)
Class Marshaler (A : Type) := Marshal : A -> list byte + string.
Class Unmarshaler (A : Type) := Unmarshal : list byte -> A -> A + string.
Class ZeroValue (A : Type) := zero : A.

(** The static type of an untyped [nil] passed as [interface{}]. *)
Inductive nil_type : Type := .

#[export] Instance nil_Marshaler : Marshaler nil_type := fun v => inl [].
#[export] Instance nil_Unmarshaler : Unmarshaler nil_type := fun _ v => inl v.

(** A Go slice value: the nil slice, or a slice with its elements, which
    may be none. *)
Inductive slice (A : Type) : Type :=
| nil_slice
| make_slice (elems : list A).

Arguments nil_slice {A}.
Arguments make_slice {A} elems.

(** The struct [Messages] is declared outside kik.go, which builds it from
    the one slice of messages, [Messages{messages}]: a struct of that one
    field. *)
Record Messages (A : Type) := { messages : slice A }.

Arguments Build_Messages {A} messages.
Arguments messages {A} m.

(** Modelled from the spec: the record types [Configuration], [Message],
    [User], [ScanData] and [Code] are declared outside kik.go; the spec
    takes them as serializable records whose shape it leaves open. The
    JSON encoding and decoding of each, and the encoding of the envelope
    [Messages], are taken as given. *)
Class Shapes := {
  Configuration : Type;
  Message : Type;
  User : Type;
  ScanData : Type;
  Code : Type;
  Configuration_Marshaler :: Marshaler Configuration;
  Configuration_Unmarshaler :: Unmarshaler Configuration;
  Configuration_zero :: ZeroValue Configuration;
  Messages_Marshaler :: Marshaler (Messages Message);
  User_Unmarshaler :: Unmarshaler User;
  User_zero :: ZeroValue User;
  ScanData_Marshaler :: Marshaler ScanData;
  Code_Unmarshaler :: Unmarshaler Code;
  Code_zero :: ZeroValue Code
}.

Definition dquote : string := String (ascii_of_nat 34) EmptyString.

(** ** kik.go *)

Definition GetUserUrl : string := "/v1/user/".
Definition SendMessageUrl : string := "/v1/message".
Definition BroadcastUrl : string := "/v1/broadcast".
Definition ConfigtUrl : string := "/v1/config".
Definition CodeUrl : string := "/v1/code".

Definition computeHmac1 (message : list byte) (secret : string) : string :=
  let key := bytes_of_string secret in
  let h := hmac.New key in
  let h := hmac.Write h message in
  hex.EncodeToString (hmac.Sum h []).

Section Kik.

Context {P : Platform} {S : Shapes}.

(** The [Client] struct; [Client_] is its field [Client], the handle of
    the HTTP transport. *)
Record Client := {
  BotUsername : string;
  ApiKey : string;
  Client_ : option loc;
  BaseUrl : url_URL
}.

(** [&http.Client{}]: a new cell, at an address the heap does not use. *)
Definition alloc (v : http_Client) (h : gmap loc http_Client)
  : loc * gmap loc http_Client :=
  let l := fresh (dom h) in (l, <[l := v]> h).

(** The constructor returns its pair of a [*Client] and an [error] as Go does, and
    the heap of transport structs after the call. *)
Definition NewKikClient (baseUrl botUsername apiKey : string)
    (httpClient : option loc) (h : gmap loc http_Client)
  : (option Client * option error) * gmap loc http_Client :=
  let '(httpClient, h) :=
    match httpClient with
    | None => let '(l, h') := alloc http_Client_zero h in (Some l, h')
    | Some l => (Some l, h)
    end in
  if negb (strings.HasSuffix baseUrl "/") then
    ((None,
      Some (Errorf ("BaseURL must have a trailing slash, but " +:+ baseUrl
                    +:+ " does not"))), h)
  else
    match url_Parse baseUrl with
    | inr err => ((None, Some err), h)
    | inl baseUrlParsed =>
        ((Some {| BotUsername := botUsername;
                  ApiKey := apiKey;
                  Client_ := httpClient;
                  BaseUrl := baseUrlParsed |}, None), h)
    end.

Definition VerifySignature (k : Client) (signature : string)
    (body : list byte) : bool :=
  String.eqb signature (computeHmac1 body (ApiKey k)).

(** *** The request operations

    The methods run against a world: the receiver struct [*k], the
    transport structs, what lies behind the transport, and a record of
    what the call did (requests handed to the transport, bodies handed
    to the JSON decoder). *)
Inductive Event :=
| Submitted (req : http.Request)
| Decoded (body : list byte).

Record World := {
  self : Client;
  heap : gmap loc http_Client;
  net : Net;
  trace : list Event
}.

Definition M (A : Type) : Type := World -> A * World.

#[global] Instance M_ret : MRet M := fun A x w => (x, w).
#[global] Instance M_bind : MBind M :=
  fun A B f m w => let '(x, w') := m w in f x w'.

Definition receiver : M Client := fun w => (self w, w).

Definition emit (ev : Event) : M unit :=
  fun w => (tt, {| self := self w; heap := heap w; net := net w;
                   trace := trace w ++ [ev] |}).

(** [k.Client.Do(req)] *)
Definition roundTrip (req : http.Request) : M (http.Response + string) :=
  fun w =>
    let '(n, r) := Client_Do (Client_ (self w) ≫= (heap w !!.)) req (net w) in
    (r, {| self := self w; heap := heap w; net := n;
           trace := trace w ++ [Submitted req] |}).

(** Modelled from the spec: [newRequest] is declared outside kik.go. The
    spec's request builder composes the target URL from the base URL and
    the relative path, serializes a present payload to the JSON body (a
    failure is an [EncodeError] with the cause and no body), and gives the
    request no body when the payload is absent; it has no effects. *)
Definition newRequest {A} `{Marshaler A} (method urlStr : string)
    (body : option A) : M (http.Request + error) :=
  k ← receiver;
  let u := url_Resolve (BaseUrl k) urlStr in
  match body with
  | None =>
      mret (inl {| http.Method := method; http.URL := u;
                   http.Header := ∅; http.Body := None |})
  | Some v =>
      match Marshal v with
      | inr cause => mret (inr (EncodeError cause))
      | inl b =>
          mret (inl {| http.Method := method; http.URL := u;
                       http.Header := ∅; http.Body := Some b |})
      end
  end.

Definition is_2xx (code : Z) : bool := (200 <=? code)%Z && (code <=? 299)%Z.

(** Modelled from the spec: [do] is declared outside kik.go. The spec's
    executor submits the request through the transport (a failure is a
    [TransportError]), turns a status outside 2xx into a [StatusError]
    with the code and the raw body without decoding, and otherwise
    decodes the body into the target when there is one (a failure is a
    [DecodeError]). The first component of the result is the target
    after the call. *)
Definition do_ {A} `{Unmarshaler A} (req : http.Request) (v : option A)
  : M (option A * option error) :=
  r ← roundTrip req;
  match r with
  | inr cause => mret (v, Some (TransportError cause))
  | inl resp =>
      if is_2xx (http.StatusCode resp) then
        match v with
        | None => mret (None, None)
        | Some x =>
            _ ← emit (Decoded (http.RespBody resp));
            match Unmarshal (http.RespBody resp) x with
            | inl x' => mret (Some x', None)
            | inr cause => mret (Some x, Some (DecodeError cause))
            end
        end
      else
        mret (v, Some (StatusError (http.StatusCode resp) (http.RespBody resp)))
  end.

(** The first component of the result is the caller's [*c] after the call. *)
Definition SetConfiguration (c : Configuration)
  : M (option Configuration * option error) :=
  r ← newRequest "POST" ConfigtUrl (Some c);
  match r with
  | inr err => mret (Some c, Some err)
  | inl req =>
      k ← receiver;
      let req := http.SetBasicAuth req (BotUsername k) (ApiKey k) in
      do_ req (Some c)
  end.

Definition GetConfiguration : M (option Configuration * option error) :=
  r ← newRequest "GET" ConfigtUrl (@None nil_type);
  match r with
  | inr err => mret (None, Some err)
  | inl req =>
      k ← receiver;
      let req := http.SetBasicAuth req (BotUsername k) (ApiKey k) in
      '(config, err) ← do_ req (Some (zero : Configuration));
      match err with
      | Some err => mret (None, Some err)
      | None => mret (config, None)
      end
  end.

Definition SendMessage (messages : slice Message) : M (option error) :=
  let payload := {| messages := messages |} in
  r ← newRequest "POST" SendMessageUrl (Some payload);
  match r with
  | inr err => mret (Some err)
  | inl req =>
      k ← receiver;
      let req := http.SetBasicAuth req (BotUsername k) (ApiKey k) in
      '(_, err) ← do_ req (@None nil_type);
      mret err
  end.

Definition BroadcastMessage (messages : slice Message) : M (option error) :=
  let payload := {| messages := messages |} in
  r ← newRequest "POST" BroadcastUrl (Some payload);
  match r with
  | inr err => mret (Some err)
  | inl req =>
      k ← receiver;
      let req := http.SetBasicAuth req (BotUsername k) (ApiKey k) in
      '(_, err) ← do_ req (@None nil_type);
      mret err
  end.

Definition GetUser (username : string) : M (option User * option error) :=
  r ← newRequest "GET" (GetUserUrl +:+ username) (@None nil_type);
  match r with
  | inr err => mret (None, Some err)
  | inl req =>
      k ← receiver;
      let req := http.SetBasicAuth req (BotUsername k) (ApiKey k) in
      '(user, err) ← do_ req (Some (zero : User));
      match err with
      | Some err => mret (None, Some err)
      | None => mret (user, None)
      end
  end.

Definition CreateCode (s : ScanData) : M (option Code * option error) :=
  r ← newRequest "POST" CodeUrl (Some s);
  match r with
  | inr err => mret (None, Some err)
  | inl req =>
      k ← receiver;
      let req := http.SetBasicAuth req (BotUsername k) (ApiKey k) in
      '(code, err) ← do_ req (Some (zero : Code));
      match err with
      | Some err => mret (None, Some err)
      | None => mret (code, None)
      end
  end.

(** *** The public operations as one type *)
Inductive Call :=
| CallSetConfiguration (c : Configuration)
| CallGetConfiguration
| CallSendMessage (messages : slice Message)
| CallBroadcastMessage (messages : slice Message)
| CallGetUser (username : string)
| CallCreateCode (s : ScanData)
| CallVerifySignature (signature : string) (body : list byte).

(** What the caller gets back, without the decoded values. *)
Inductive Ret :=
| RetError (err : option error)
| RetBool (b : bool).

Definition exec (c : Call) : M Ret :=
  match c with
  | CallSetConfiguration c => r ← SetConfiguration c; mret (RetError r.2)
  | CallGetConfiguration => r ← GetConfiguration; mret (RetError r.2)
  | CallSendMessage ms => err ← SendMessage ms; mret (RetError err)
  | CallBroadcastMessage ms => err ← BroadcastMessage ms; mret (RetError err)
  | CallGetUser u => r ← GetUser u; mret (RetError r.2)
  | CallCreateCode s => r ← CreateCode s; mret (RetError r.2)
  | CallVerifySignature sig body =>
      k ← receiver; mret (RetBool (VerifySignature k sig body))
  end.

(** The request each operation builds first. *)
Definition build (c : Call) : option (M (http.Request + error)) :=
  match c with
  | CallSetConfiguration c => Some (newRequest "POST" ConfigtUrl (Some c))
  | CallGetConfiguration => Some (newRequest "GET" ConfigtUrl (@None nil_type))
  | CallSendMessage ms =>
      Some (newRequest "POST" SendMessageUrl (Some {| messages := ms |}))
  | CallBroadcastMessage ms =>
      Some (newRequest "POST" BroadcastUrl (Some {| messages := ms |}))
  | CallGetUser u =>
      Some (newRequest "GET" (GetUserUrl +:+ u) (@None nil_type))
  | CallCreateCode s => Some (newRequest "POST" CodeUrl (Some s))
  | CallVerifySignature _ _ => None
  end.

End Kik.

(** ** Predicates used in the statements *)

(** Forty characters, each a lowercase hexadecimal digit. *)
Definition is_hex40 (s : string) : bool :=
  (String.length s =? 40)%nat && hex.all_lower_hex s.

(** The string with the character at index [i] replaced by [c]. *)
Fixpoint replace_char (i : nat) (c : ascii) (s : string) : string :=
  match s with
  | EmptyString => EmptyString
  | String a rest =>
      match i with
      | O => String c rest
      | S i' => String a (replace_char i' c rest)
      end
  end.

(** A submitted request carries the Basic Auth header of the client [k]. *)
Definition authenticated `{Platform} (k : Client) (ev : Event) : Prop :=
  match ev with
  | Submitted req =>
      http.Header req !! "Authorization"
      = Some ["Basic " +:+ http.basicAuth (BotUsername k) (ApiKey k)]
  | Decoded _ => True
  end.

Definition is_Decoded (ev : Event) : Prop :=
  match ev with
  | Submitted _ => False
  | Decoded _ => True
  end.

(** What a call may do to the world: the client struct and the transport
    structs stay, and the trace grows by authenticated events. *)
Definition effect `{Platform} (w w' : World) : Prop :=
  self w' = self w /\ heap w' = heap w
  /\ exists new, trace w' = trace w ++ new
                 /\ Forall (authenticated (self w)) new.

(** ** A concrete platform

    A URL parser that keeps the text (and rejects a text that starts with a
    colon, where no scheme can be read), a join of base and path that keeps
    one slash where the two meet, a server that knows one user, and
    record types that are their own JSON text, the empty text standing for
    a value that cannot be serialized. *)
Module Mock.

Definition parse (s : string) : string + error :=
  if String.prefix ":" s then inr (UrlError "missing protocol scheme")
  else inl s.

Definition resolve (base path : string) : string :=
  match path with
  | String c rest =>
      if Ascii.eqb c "/" && strings.HasSuffix base "/" then base +:+ rest
      else base +:+ path
  | EmptyString => base
  end.

Definition user_alice : string :=
  "{" +:+ dquote +:+ "username" +:+ dquote +:+ ":"
  +:+ dquote +:+ "alice" +:+ dquote +:+ "}".

Definition serve (c : option unit) (req : http.Request) (n : nat)
  : nat * (http.Response + string) :=
  match c with
  | None => (n, inr "no transport")
  | Some _ =>
      if String.eqb (http.Method req) "GET" then
        (S n, inl {| http.StatusCode := 200;
                     http.RespBody := bytes_of_string user_alice |})
      else
        (S n, inl {| http.StatusCode := 404;
                     http.RespBody := bytes_of_string "Not Found" |})
  end.

Definition platform : Platform :=
  {| url_URL := string; url_Parse := parse; url_Resolve := resolve;
     http_Client := unit; http_Client_zero := tt;
     Net := nat; Client_Do := serve |}.

Definition marshal (s : string) : list byte + string :=
  if String.eqb s EmptyString then inr "unsupported value"
  else inl (bytes_of_string s).

Definition unmarshal (b : list byte) (old : string) : string + string :=
  match b with
  | [] => inr "unexpected end of JSON input"
  | _ => inl (string_of_bytes b)
  end.

(** The envelope as the JSON object with the one field messages: null for
    the nil slice, the array of the encoded messages otherwise. *)
Fixpoint join (sep : string) (l : list string) : string :=
  match l with
  | [] => EmptyString
  | [x] => x
  | x :: rest => x +:+ sep +:+ join sep rest
  end.

(** Every element encoded, or the first failure. *)
Fixpoint marshal_all (l : list string) : list string + string :=
  match l with
  | [] => inl []
  | x :: rest =>
      match marshal x with
      | inr cause => inr cause
      | inl b =>
          match marshal_all rest with
          | inr cause => inr cause
          | inl bs => inl (string_of_bytes b :: bs)
          end
      end
  end.

Definition marshal_messages (m : Messages string) : list byte + string :=
  match messages m with
  | nil_slice =>
      inl (bytes_of_string
             ("{" +:+ dquote +:+ "messages" +:+ dquote +:+ ":null}"))
  | make_slice elems =>
      match marshal_all elems with
      | inr cause => inr cause
      | inl parts =>
          inl (bytes_of_string
                 ("{" +:+ dquote +:+ "messages" +:+ dquote +:+ ":["
                  +:+ join "," parts +:+ "]}"))
      end
  end.

Definition shapes : Shapes :=
  {| Configuration := string; Message := string; User := string;
     ScanData := string; Code := string;
     Configuration_Marshaler := marshal;
     Configuration_Unmarshaler := unmarshal;
     Configuration_zero := EmptyString;
     Messages_Marshaler := marshal_messages;
     User_Unmarshaler := unmarshal;
     User_zero := EmptyString;
     ScanData_Marshaler := marshal;
     Code_Unmarshaler := unmarshal;
     Code_zero := EmptyString |}.

Definition client : @Client platform :=
  @Build_Client platform "bot1" "secret" (Some 1%positive)
    "https://api.kik.com/".

Definition world : @World platform :=
  @Build_World platform client {[ 1%positive := tt ]} 0%nat [].

End Mock.

(** ** The operations by route

    The HTTP method and the relative path each request operation passes to
    the builder, and whether it passes a decode target to the executor. *)
Section Routes.

Context {P : Platform} {S : Shapes}.


Definition decodes (c : Call) : bool :=
  match c with
  | CallSetConfiguration _ | CallGetConfiguration
  | CallGetUser _ | CallCreateCode _ => true
  | CallSendMessage _ | CallBroadcastMessage _
  | CallVerifySignature _ _ => false
  end.

(** The transport struct the client's handle points to, if any. *)
Definition transport (w : World) : option http_Client :=
  Client_ (self w) ≫= (heap w !!.).

(** The world once the transport has taken the request. *)
Definition submitted (w : World) (n : Net) (req : http.Request) : World :=
  {| self := self w; heap := heap w; net := n;
     trace := trace w ++ [Submitted req] |}.

(** The request with the credentials of the receiver. *)
Definition with_auth (w : World) (req : http.Request) : http.Request :=
  http.SetBasicAuth req (BotUsername (self w)) (ApiKey (self w)).

(** A session: calls made one after the other on the same client. *)
Fixpoint exec_all (calls : list Call) : M (list Ret) :=
  match calls with
  | [] => mret []
  | c :: rest => r ← exec c; rs ← exec_all rest; mret (r :: rs)
  end.

End Routes.

(** ** A second concrete platform

    The parser of the first one, and a server that answers every request
    with status 200 and the body it was sent. *)
Module Echo.

Definition serve (c : option unit) (req : http.Request) (n : nat)
  : nat * (http.Response + string) :=
  (S n, inl {| http.StatusCode := 200;
               http.RespBody := default [] (http.Body req) |}).

Definition platform : Platform :=
  {| url_URL := string; url_Parse := Mock.parse;
     url_Resolve := Mock.resolve;
     http_Client := unit; http_Client_zero := tt;
     Net := nat; Client_Do := serve |}.

Definition client : @Client platform :=
  @Build_Client platform "bot1" "secret" (Some 1%positive)
    "https://api.kik.com/".

Definition world : @World platform :=
  @Build_World platform client {[ 1%positive := tt ]} 0%nat [].

End Echo.

(** A world of the first platform whose client has a nil transport
    handle, and a secret of 70 characters. *)
Definition world_without_transport : @World Mock.platform :=
  @Build_World Mock.platform
    (@Build_Client Mock.platform "bot1" "secret" None "https://api.kik.com/")
    ∅ 0%nat [].

Definition long_secret : string :=
  "0123456789012345678901234567890123456789012345678901234567890123456789".

(** * Properties *)

(** ** The library models against published test vectors *)

Example sha1_abc :
  hex.EncodeToString (sha1.Sum (bytes_of_string "abc"))
  = "a9993e364706816aba3e25717850c26c9cd0d89d".
Proof. vm_compute. reflexivity. Qed.

Example sha1_empty :
  hex.EncodeToString (sha1.Sum [])
  = "da39a3ee5e6b4b0d3255bfef95601890afd80709".
Proof. vm_compute. reflexivity. Qed.

Example sha1_two_blocks :
  hex.EncodeToString
    (sha1.Sum (bytes_of_string
       "abcdbcdecdefdefgefghfghighijhijkijkljklmklmnlmnomnopnopq"))
  = "84983e441c3bd26ebaae4aa1f95129e5e54670f1".
Proof. vm_compute. reflexivity. Qed.

Example hmac_sha1_fox :
  computeHmac1
    (bytes_of_string "The quick brown fox jumps over the lazy dog") "key"
  = "de7c9b85b8b78aa6bc8a7a36f70a90701c9db4d9".
Proof. vm_compute. reflexivity. Qed.

(** RFC 2202, test case 6: a key longer than the block is hashed first. *)
Example hmac_sha1_long_key :
  hex.EncodeToString
    (hmac.Sum
       (hmac.Write (hmac.New (repeat xaa 80))
          (bytes_of_string
             "Test Using Larger Than Block-Size Key - Hash Key First")) [])
  = "aa4ae5e15272d00e95705637ce8a3b55ed402112".
Proof. vm_compute. reflexivity. Qed.

(** RFC 2202, test case 2. *)
Example hmac_sha1_jefe :
  hmac_sha1_hex (bytes_of_string "what do ya want for nothing?") "Jefe"
  = "effcdf6ae5eb2fa2d27416d5f184df9c259a7c79".
Proof. vm_compute. reflexivity. Qed.

Example basicAuth_rfc7617 :
  http.basicAuth "Aladdin" "open sesame" = "QWxhZGRpbjpvcGVuIHNlc2FtZQ==".
Proof. vm_compute. reflexivity. Qed.

Example HasSuffix_samples :
  strings.HasSuffix "https://api.kik.com/" "/" = true
  /\ strings.HasSuffix "https://api.kik.com" "/" = false
  /\ strings.HasSuffix EmptyString "/" = false.
Proof. vm_compute. auto. Qed.

(** ** The digest *)

Lemma sha1_Sum_length (data : list byte) : length (sha1.Sum data) = 20%nat.
Proof.
  unfold sha1.Sum.
  generalize (sha1.blocks (length (sha1.pad data) / 64) sha1.init
                (sha1.pad data)).
  intros h. reflexivity.
Qed.

(** The hash object of [hmac.New], written to once and summed, computes the
    RFC 2104 formula. *)
Lemma hmac_object_rfc2104 (key message : list byte) :
  hmac.Sum (hmac.Write (hmac.New key) message) [] = hmac_sha1 key message.
Proof. reflexivity. Qed.

Lemma computeHmac1_hmac_sha1_hex (message : list byte) (secret : string) :
  computeHmac1 message secret = hmac_sha1_hex message secret.
Proof.
  unfold computeHmac1, hmac_sha1_hex. now rewrite hmac_object_rfc2104.
Qed.

Lemma hmac_sha1_length (K text : list byte) : length (hmac_sha1 K text) = 20%nat.
Proof. unfold hmac_sha1. apply sha1_Sum_length. Qed.

Lemma hex_digit_lower (v : byte) :
  hex.is_lower_hex (hex.digit (N.shiftr (Byte.to_N v) 4)) = true
  /\ hex.is_lower_hex (hex.digit (N.land (Byte.to_N v) 15)) = true.
Proof. destruct v; split; reflexivity. Qed.

Lemma hex_Encode_length (src : list byte) :
  String.length (hex.Encode src) = (2 * length src)%nat.
Proof.
  induction src as [|v rest IH]; [reflexivity|].
  cbn [hex.Encode String.length length]. rewrite IH. lia.
Qed.

Lemma hex_Encode_lower (src : list byte) :
  hex.all_lower_hex (hex.Encode src) = true.
Proof.
  induction src as [|v rest IH]; [reflexivity|].
  cbn [hex.Encode hex.all_lower_hex].
  destruct (hex_digit_lower v) as [-> ->]. exact IH.
Qed.

Lemma computeHmac1_hex40 (message : list byte) (secret : string) :
  is_hex40 (computeHmac1 message secret) = true.
Proof.
  rewrite computeHmac1_hmac_sha1_hex.
  unfold is_hex40, hmac_sha1_hex, hex.EncodeToString.
  rewrite hex_Encode_length, hmac_sha1_length, hex_Encode_lower.
  reflexivity.
Qed.

Lemma replace_char_neq (i : nat) (c c0 : ascii) (s : string) :
  String.get i s = Some c0 -> c <> c0 -> replace_char i c s <> s.
Proof.
  revert i. induction s as [|a rest IH]; intros i Hget Hne.
  - destruct i; discriminate.
  - destruct i as [|i']; cbn in *.
    + injection Hget as ->. intros Heq. injection Heq as Heq. contradiction.
    + intros Heq. injection Heq as Heq. exact (IH i' Hget Hne Heq).
Qed.

Section Signature.

Context {P : Platform}.

(** C1: [VerifySignature] answers true exactly when the claimed signature
    equals the lowercase hexadecimal HMAC-SHA1 digest of the body keyed
    with the client's API key; the digest itself verifies, and replacing
    any one character of it by a different character makes the check
    fail. *)
Theorem VerifySignature_exact (k : Client) (s : string) (b : list byte) :
  (VerifySignature k s b = true <-> s = hmac_sha1_hex b (ApiKey k))
  /\ VerifySignature k (hmac_sha1_hex b (ApiKey k)) b = true
  /\ (forall (i : nat) (c c0 : ascii),
        String.get i (hmac_sha1_hex b (ApiKey k)) = Some c0 ->
        c <> c0 ->
        VerifySignature k (replace_char i c (hmac_sha1_hex b (ApiKey k))) b
        = false).
Proof.
  unfold VerifySignature. rewrite !computeHmac1_hmac_sha1_hex.
  split; [apply String.eqb_eq|].
  split; [apply String.eqb_refl|].
  intros i c c0 Hget Hne. apply String.eqb_neq.
  exact (replace_char_neq i c c0 _ Hget Hne).
Qed.

(** C10: a claimed signature that is not forty lowercase hexadecimal
    characters is rejected for every body and API key, the computed
    digest always being such a string. *)
Theorem VerifySignature_rejects_malformed (k : Client) (s : string)
    (b : list byte) :
  is_hex40 s = false -> VerifySignature k s b = false.
Proof.
  intros Hs. unfold VerifySignature. apply String.eqb_neq. intros ->.
  rewrite computeHmac1_hex40 in Hs. discriminate.
Qed.

End Signature.

Lemma VerifySignature_exact_witness :
  @VerifySignature Mock.platform Mock.client
    (replace_char 0 "x" (hmac_sha1_hex (bytes_of_string "hello") "secret"))
    (bytes_of_string "hello") = false.
Proof.
  refine (proj2 (proj2 (@VerifySignature_exact Mock.platform Mock.client
                          EmptyString (bytes_of_string "hello")))
            0%nat "x"%char "5"%char _ _).
  - vm_compute. reflexivity.
  - discriminate.
Defined.

Lemma VerifySignature_rejects_malformed_witness :
  @VerifySignature Mock.platform Mock.client "5112055C05F944F85755EFC5CD8970E194E9F45B"
    (bytes_of_string "hello") = false.
Proof.
  apply (@VerifySignature_rejects_malformed Mock.platform).
  vm_compute. reflexivity.
Defined.

Example hmac_sha1_hello :
  computeHmac1 (bytes_of_string "hello") "secret"
  = "5112055c05f944f85755efc5cd8970e194e9f45b".
Proof. vm_compute. reflexivity. Qed.

(** ** The constructor *)

Section Constructor.

Context {P : Platform}.

Lemma alloc_fresh (v : http_Client) (h : gmap loc http_Client) :
  h !! (alloc v h).1 = None /\ (alloc v h).2 = <[(alloc v h).1 := v]> h.
Proof.
  unfold alloc. cbn. split; [|reflexivity].
  apply not_elem_of_dom, is_fresh.
Qed.

(** The transport handle and the heap that the checks of the constructor
    run with. *)
Lemma NewKikClient_unfold (baseUrl bot key : string) (hc : option loc)
    (h : gmap loc http_Client) :
  exists (l : loc) (h' : gmap loc http_Client),
    (match hc with
     | None => l = (alloc http_Client_zero h).1
               /\ h' = (alloc http_Client_zero h).2
     | Some l0 => l = l0 /\ h' = h
     end)
    /\ NewKikClient baseUrl bot key hc h
       = (if negb (strings.HasSuffix baseUrl "/") then
            (None,
             Some (Errorf ("BaseURL must have a trailing slash, but "
                           +:+ baseUrl +:+ " does not")))
          else
            match url_Parse baseUrl with
            | inr err => (None, Some err)
            | inl u =>
                (Some {| BotUsername := bot; ApiKey := key;
                         Client_ := Some l; BaseUrl := u |}, None)
            end, h').
Proof.
  unfold NewKikClient. destruct hc as [l0|].
  - exists l0, h. split; [auto|].
    destruct (negb _); [reflexivity|]. destruct (url_Parse _); reflexivity.
  - exists (alloc http_Client_zero h).1, (alloc http_Client_zero h).2.
    split; [auto|]. unfold alloc. cbn.
    destruct (negb _); [reflexivity|]. destruct (url_Parse _); reflexivity.
Qed.

(** C2: a base URL that the URL parser accepts and that ends in a slash
    gives a client and no error; a base URL that does not end in a slash
    gives no client and the error that names it. *)
Theorem NewKikClient_trailing_slash (baseUrl bot key : string)
    (hc : option loc) (h : gmap loc http_Client) :
  (forall u : url_URL,
      strings.HasSuffix baseUrl "/" = true ->
      url_Parse baseUrl = inl u ->
      exists c : Client,
        (NewKikClient baseUrl bot key hc h).1 = (Some c, None)
        /\ BotUsername c = bot /\ ApiKey c = key /\ BaseUrl c = u)
  /\ (strings.HasSuffix baseUrl "/" = false ->
      (NewKikClient baseUrl bot key hc h).1
      = (None,
         Some (Errorf ("BaseURL must have a trailing slash, but "
                       +:+ baseUrl +:+ " does not")))).
Proof.
  destruct (NewKikClient_unfold baseUrl bot key hc h) as (l & h' & _ & ->).
  split.
  - intros u Hs Hp. rewrite Hs, Hp. cbn. eexists. repeat split.
  - intros Hs. rewrite Hs. reflexivity.
Qed.

(** C9: called with a nil transport handle, the constructor allocates a
    default [http.Client] at an address that was not in use and leaves the
    rest of the heap as it was; and the client of every successful
    construction has a non-nil handle: the new address, or the handle
    that was passed. *)
Theorem NewKikClient_transport (baseUrl bot key : string)
    (h : gmap loc http_Client) :
  (exists l : loc,
      h !! l = None
      /\ (NewKikClient baseUrl bot key None h).2 = <[l := http_Client_zero]> h
      /\ forall c e, (NewKikClient baseUrl bot key None h).1 = (Some c, e) ->
                     Client_ c = Some l)
  /\ (forall (hc : option loc) (c : Client) (e : option error),
        (NewKikClient baseUrl bot key hc h).1 = (Some c, e) ->
        Client_ c <> None /\ e = None
        /\ forall l, hc = Some l -> Client_ c = Some l).
Proof.
  split.
  - destruct (NewKikClient_unfold baseUrl bot key None h)
      as (l & h' & [-> ->] & ->).
    destruct (alloc_fresh http_Client_zero h) as [Hfresh Hheap].
    eexists. split; [exact Hfresh|]. split; [exact Hheap|].
    intros c e. cbn. destruct (negb _); [discriminate|].
    destruct (url_Parse _); [|discriminate].
    intros [= <- <-]. reflexivity.
  - intros hc c e.
    destruct (NewKikClient_unfold baseUrl bot key hc h) as (l & h' & Hl & ->).
    cbn. destruct (negb _); [discriminate|].
    destruct (url_Parse _); [|discriminate].
    intros [= <- <-]. cbn. split; [discriminate|]. split; [reflexivity|].
    intros l0 ->. destruct Hl as [-> _]. reflexivity.
Qed.

End Constructor.

Lemma NewKikClient_trailing_slash_witness :
  (exists c : @Client Mock.platform,
      (NewKikClient "https://api.kik.com/" "bot1" "secret" None ∅).1
      = (Some c, None)
      /\ BotUsername c = "bot1" /\ ApiKey c = "secret"
      /\ BaseUrl c = "https://api.kik.com/")
  /\ (@NewKikClient Mock.platform "https://api.kik.com" "bot1" "secret" None ∅).1
     = (None,
        Some (Errorf ("BaseURL must have a trailing slash, but "
                      +:+ "https://api.kik.com" +:+ " does not"))).
Proof.
  split.
  - apply (proj1 (@NewKikClient_trailing_slash Mock.platform
                    "https://api.kik.com/" "bot1" "secret" None ∅)).
    + vm_compute. reflexivity.
    + vm_compute. reflexivity.
  - apply (proj2 (@NewKikClient_trailing_slash Mock.platform
                    "https://api.kik.com" "bot1" "secret" None ∅)).
    vm_compute. reflexivity.
Defined.

Lemma NewKikClient_transport_witness :
  Client_ Mock.client <> None
  /\ (None : option error) = None
  /\ forall l, (None : option loc) = Some l -> Client_ Mock.client = Some l.
Proof.
  apply (proj2 (@NewKikClient_transport Mock.platform
                  "https://api.kik.com/" "bot1" "secret" ∅) None).
  vm_compute. reflexivity.
Defined.

(** ** The request operations *)

Section Operations.

Context {P : Platform} {S : Shapes}.


(** The builder returns its result in the world it was given. *)
Lemma newRequest_run {A} `{Marshaler A} (method urlStr : string)
    (body : option A) (w : World) :
  newRequest method urlStr body w
  = (match body with
     | None =>
         inl {| http.Method := method;
                http.URL := url_Resolve (BaseUrl (self w)) urlStr;
                http.Header := ∅; http.Body := None |}
     | Some v =>
         match Marshal v with
         | inr cause => inr (EncodeError cause)
         | inl b =>
             inl {| http.Method := method;
                    http.URL := url_Resolve (BaseUrl (self w)) urlStr;
                    http.Header := ∅; http.Body := Some b |}
         end
     end, w).
Proof.
  unfold newRequest, receiver, mbind, M_bind, mret, M_ret.
  destruct body as [v|]; [destruct (Marshal v)|]; reflexivity.
Qed.

(** What the executor does to the world: the client struct and the
    transport structs stay, the request is handed to the transport, and
    at most one decoding follows, none without a target. *)
Lemma do_effect {A} `{Unmarshaler A} (req : http.Request) (v : option A)
    (w : World) :
  exists tail : list Event,
    self (do_ req v w).2 = self w
    /\ heap (do_ req v w).2 = heap w
    /\ trace (do_ req v w).2 = trace w ++ Submitted req :: tail
    /\ Forall is_Decoded tail
    /\ (v = None -> tail = []).
Proof.
  unfold do_, roundTrip, emit, mbind, M_bind, mret, M_ret.
  destruct (Client_Do _ req (net w)) as [n [resp|cause]].
  - destruct (is_2xx (http.StatusCode resp)).
    + destruct v as [x|].
      * exists [Decoded (http.RespBody resp)].
        destruct (Unmarshal (http.RespBody resp) x); cbn;
          rewrite <- app_assoc; repeat split; auto; try discriminate;
          repeat constructor.
      * exists []. cbn. repeat split; auto.
    + exists []. cbn. repeat split; auto.
  - exists []. cbn. repeat split; auto.
Qed.

Lemma authenticated_SetBasicAuth (k : Client) (req : http.Request) :
  authenticated k
    (Submitted (http.SetBasicAuth req (BotUsername k) (ApiKey k))).
Proof. cbn. apply lookup_insert_eq. Qed.

Lemma Decoded_authenticated (k : Client) (tail : list Event) :
  Forall is_Decoded tail -> Forall (authenticated k) tail.
Proof.
  induction 1 as [|ev tail Hev _ IH]; constructor; [|exact IH].
  destruct ev; [contradiction|exact I].
Qed.

Lemma effect_refl (w : World) : effect w w.
Proof.
  repeat split. exists []. split; [now rewrite app_nil_r|constructor].
Qed.

Lemma effect_submit (w w' : World) (req : http.Request) (tail : list Event) :
  self w' = self w -> heap w' = heap w ->
  trace w' = trace w
             ++ Submitted (http.SetBasicAuth req (BotUsername (self w))
                             (ApiKey (self w))) :: tail ->
  Forall is_Decoded tail ->
  effect w w'.
Proof.
  intros Hs Hh Ht Hd. repeat split; [exact Hs|exact Hh|].
  eexists. split; [exact Ht|]. constructor.
  - apply authenticated_SetBasicAuth.
  - now apply Decoded_authenticated.
Qed.

(** Runs the builder, then names the outcome of the executor. *)
Ltac run_pipeline :=
  unfold mbind, M_bind; rewrite newRequest_run;
  try match goal with
    | |- context [@Marshal ?A ?M ?v] => destruct (@Marshal A M v)
    end;
  cbn [mret M_ret receiver]; [|try apply effect_refl..];
  match goal with
  | |- context [do_ ?r ?v ?w] =>
      let tail := fresh "tail" in
      let Hs := fresh "Hs" in let Hh := fresh "Hh" in
      let Ht := fresh "Ht" in let Hd := fresh "Hd" in
      let Hn := fresh "Hn" in
      destruct (do_effect r v w) as (tail & Hs & Hh & Ht & Hd & Hn);
      destruct (do_ r v w) as [[? [?|]] ?]; cbn in Hs, Hh, Ht; cbn
  end.

Lemma SetConfiguration_effect (c : Configuration) (w : World) :
  effect w (SetConfiguration c w).2.
Proof. unfold SetConfiguration. run_pipeline; eauto using effect_submit. Qed.

Lemma GetConfiguration_effect (w : World) : effect w (GetConfiguration w).2.
Proof. unfold GetConfiguration. run_pipeline; eauto using effect_submit. Qed.

Lemma SendMessage_effect (ms : slice Message) (w : World) :
  effect w (SendMessage ms w).2.
Proof. unfold SendMessage. run_pipeline; eauto using effect_submit. Qed.

Lemma BroadcastMessage_effect (ms : slice Message) (w : World) :
  effect w (BroadcastMessage ms w).2.
Proof. unfold BroadcastMessage. run_pipeline; eauto using effect_submit. Qed.

Lemma GetUser_effect (username : string) (w : World) :
  effect w (GetUser username w).2.
Proof. unfold GetUser. run_pipeline; eauto using effect_submit. Qed.

Lemma CreateCode_effect (s : ScanData) (w : World) :
  effect w (CreateCode s w).2.
Proof. unfold CreateCode. run_pipeline; eauto using effect_submit. Qed.

Lemma exec_effect (call : Call) (w : World) : effect w (exec call w).2.
Proof.
  destruct call; unfold exec, mbind, M_bind; cbn [mret M_ret receiver].
  - pose proof (SetConfiguration_effect c w) as H.
    now destruct (SetConfiguration c w).
  - pose proof (GetConfiguration_effect w) as H.
    now destruct (GetConfiguration w).
  - pose proof (SendMessage_effect messages0 w) as H.
    now destruct (SendMessage messages0 w).
  - pose proof (BroadcastMessage_effect messages0 w) as H.
    now destruct (BroadcastMessage messages0 w).
  - pose proof (GetUser_effect username w) as H.
    now destruct (GetUser username w).
  - pose proof (CreateCode_effect s w) as H.
    now destruct (CreateCode s w).
  - apply effect_refl.
Qed.

(** C3: whatever public operation runs, every request it hands to the
    transport carries the Basic Auth header made from the bot name and
    the API key of the client. *)
Theorem exec_requests_authenticated (call : Call) (w : World) :
  exists new : list Event,
    trace (exec call w).2 = trace w ++ new
    /\ forall req : http.Request,
         In (Submitted req) new ->
         http.Header req !! "Authorization"
         = Some ["Basic " +:+ http.basicAuth (BotUsername (self w))
                                             (ApiKey (self w))].
Proof.
  destruct (exec_effect call w) as (_ & _ & new & Ht & Hall).
  exists new. split; [exact Ht|]. intros req Hin.
  exact (proj1 (List.Forall_forall _ _) Hall _ Hin).
Qed.

(** C8: no public operation changes the client: its bot name, API key,
    base URL and transport handle are after the call what they were
    before. *)
Theorem exec_client_unchanged (call : Call) (w : World) :
  self (exec call w).2 = self w
  /\ BotUsername (self (exec call w).2) = BotUsername (self w)
  /\ ApiKey (self (exec call w).2) = ApiKey (self w)
  /\ BaseUrl (self (exec call w).2) = BaseUrl (self w)
  /\ Client_ (self (exec call w).2) = Client_ (self w).
Proof.
  destruct (exec_effect call w) as (Hs & _). rewrite Hs. repeat split.
Qed.

(** C4: when the transport answers with a status outside 200..299, the
    executor returns the [StatusError] with that status and that body,
    leaves the target as it was, and records the submission only: nothing
    is handed to the decoder. *)
Theorem do_status_error {A} `{Unmarshaler A} (req : http.Request)
    (v : option A) (w : World) (n : Net) (resp : http.Response) :
  Client_Do (Client_ (self w) ≫= (heap w !!.)) req (net w) = (n, inl resp) ->
  (http.StatusCode resp < 200 \/ 299 < http.StatusCode resp)%Z ->
  do_ req v w
  = ((v, Some (StatusError (http.StatusCode resp) (http.RespBody resp))),
     {| self := self w; heap := heap w; net := n;
        trace := trace w ++ [Submitted req] |}).
Proof.
  intros Hdo Hcode. unfold do_, roundTrip, mbind, M_bind, mret, M_ret in *.
  rewrite Hdo.
  assert (is_2xx (http.StatusCode resp) = false) as ->; [|reflexivity].
  unfold is_2xx. apply andb_false_iff. lia.
Qed.

(** C5: when the request of an operation cannot be built, the operation
    returns the build error and the world is as before: nothing was
    handed to the transport. *)
Theorem exec_build_error (call : Call) (m : M (http.Request + error))
    (w : World) (e : error) :
  build call = Some m ->
  (m w).1 = inr e ->
  exec call w = (RetError (Some e), w).
Proof.
  destruct call; cbn [build]; intros [= <-]; rewrite newRequest_run;
    cbn [fst]; try discriminate;
    unfold exec, SetConfiguration, SendMessage, BroadcastMessage, CreateCode,
      mbind, M_bind;
    rewrite newRequest_run;
    match goal with
    | |- context [@Marshal ?A ?M ?v] => destruct (@Marshal A M v)
    end; try discriminate; intros [= <-]; reflexivity.
Qed.

(** A payload that cannot be serialized makes the builder fail, with the
    cause. *)
Lemma newRequest_encode_error {A} `{Marshaler A} (method urlStr : string)
    (v : A) (cause : string) (w : World) :
  Marshal v = inr cause ->
  newRequest method urlStr (Some v) w = (inr (EncodeError cause), w).
Proof. intros Hm. rewrite newRequest_run, Hm. reflexivity. Qed.

(** Without a payload the builder cannot fail. *)
Lemma newRequest_nil_ok (method urlStr : string) (w : World) :
  exists req, newRequest method urlStr (@None nil_type) w = (inl req, w).
Proof. rewrite newRequest_run. eauto. Qed.

End Operations.

Example NewKikClient_mock :
  @NewKikClient Mock.platform "https://api.kik.com/" "bot1" "secret" None ∅
  = ((Some Mock.client, None), {[ 1%positive := tt ]}).
Proof. vm_compute. reflexivity. Qed.

(** A text that ends in a slash and that the parser rejects gives the
    parser's error. *)
Example NewKikClient_mock_unparsed :
  (@NewKikClient Mock.platform ":/" "bot1" "secret" None ∅).1
  = (None, Some (UrlError "missing protocol scheme")).
Proof. vm_compute. reflexivity. Qed.

(** The scenario of the user lookup on the concrete platform: one GET with
    the credentials bot1:secret, and the decoded answer. *)
Example GetUser_mock :
  exists req,
    (@GetUser Mock.platform Mock.shapes "alice" Mock.world).1
    = (Some Mock.user_alice, None)
    /\ trace (@GetUser Mock.platform Mock.shapes "alice" Mock.world).2
       = [Submitted req; Decoded (bytes_of_string Mock.user_alice)]
    /\ http.Method req = "GET"
    /\ http.Header req !! "Authorization" = Some ["Basic Ym90MTpzZWNyZXQ="].
Proof. eexists. vm_compute. repeat split. Qed.

Lemma do_status_error_witness :
  @do_ Mock.platform string Mock.unmarshal
    {| http.Method := "POST"; http.URL := "https://api.kik.com//v1/code";
       http.Header := ∅; http.Body := None |}
    (Some "kept") Mock.world
  = ((Some "kept", Some (StatusError 404 (bytes_of_string "Not Found"))),
     @Build_World Mock.platform Mock.client {[ 1%positive := tt ]} 1%nat
       [Submitted {| http.Method := "POST";
                     http.URL := "https://api.kik.com//v1/code";
                     http.Header := ∅; http.Body := None |}]).
Proof.
  apply (@do_status_error Mock.platform string Mock.unmarshal _ _ Mock.world
           1%nat {| http.StatusCode := 404;
                    http.RespBody := bytes_of_string "Not Found" |}).
  - vm_compute. reflexivity.
  - right. cbn. lia.
Defined.

Lemma exec_build_error_witness :
  @exec Mock.platform Mock.shapes
    (@CallSetConfiguration Mock.shapes EmptyString) Mock.world
  = (RetError (Some (EncodeError "unsupported value")), Mock.world).
Proof.
  eapply (@exec_build_error Mock.platform Mock.shapes).
  - reflexivity.
  - vm_compute. reflexivity.
Defined.

(** * Further properties *)

(** ** Strings and byte slices *)

Lemma append_cons (a : ascii) (x y : string) :
  String a x +:+ y = String a (x +:+ y).
Proof. reflexivity. Qed.

Lemma append_nil (y : string) : EmptyString +:+ y = y.
Proof. reflexivity. Qed.

Lemma substring_all (s : string) : substring 0 (String.length s) s = s.
Proof. induction s as [|a s IH]; cbn; [reflexivity|now rewrite IH]. Qed.

Lemma substring_split (s : string) (n : nat) :
  (n <= String.length s)%nat ->
  s = substring 0 n s +:+ substring n (String.length s - n) s.
Proof.
  revert n. induction s as [|a s IH]; intros n Hn.
  - destruct n; [reflexivity|cbn in Hn; lia].
  - destruct n as [|n'].
    + rewrite Nat.sub_0_r, substring_all. reflexivity.
    + cbn [String.length Nat.sub substring]. rewrite append_cons. f_equal.
      apply IH. cbn in Hn. lia.
Qed.

Lemma substring_suffix (p suffix : string) :
  substring (String.length p) (String.length suffix) (p +:+ suffix) = suffix.
Proof.
  induction p as [|a p IH]; rewrite ?append_cons, ?append_nil;
    cbn [String.length substring].
  - induction suffix as [|b q IHq]; [reflexivity|].
    cbn [String.length substring]. f_equal. exact IHq.
  - destruct (String.length suffix) eqn:E; exact IH.
Qed.

Lemma length_append (a b : string) :
  String.length (a +:+ b) = (String.length a + String.length b)%nat.
Proof.
  induction a as [|c a IH]; rewrite ?append_cons, ?append_nil; cbn;
    [reflexivity|now rewrite IH].
Qed.

(** [strings.HasSuffix] answers true exactly for the strings that are some
    prefix followed by the suffix. *)
Lemma HasSuffix_iff (s suffix : string) :
  strings.HasSuffix s suffix = true <-> exists p, s = p +:+ suffix.
Proof.
  unfold strings.HasSuffix. rewrite andb_true_iff, Nat.leb_le, String.eqb_eq.
  split.
  - intros [Hlen Hsub].
    exists (substring 0 (String.length s - String.length suffix) s).
    rewrite (substring_split s (String.length s - String.length suffix))
      at 1 by lia.
    f_equal.
    replace (String.length s - (String.length s - String.length suffix))%nat
      with (String.length suffix) by lia.
    exact Hsub.
  - intros [p ->]. rewrite length_append. split; [lia|].
    replace (String.length p + String.length suffix - String.length suffix)%nat
      with (String.length p) by lia.
    apply substring_suffix.
Qed.

Lemma bytes_of_string_length (s : string) :
  length (bytes_of_string s) = String.length s.
Proof.
  unfold bytes_of_string, list_byte_of_string. rewrite length_map.
  induction s as [|a s IH]; cbn; [reflexivity|now rewrite IH].
Qed.

Lemma bytes_of_string_app (a b : string) :
  bytes_of_string (a +:+ b) = bytes_of_string a ++ bytes_of_string b.
Proof.
  unfold bytes_of_string, list_byte_of_string. rewrite <- map_app. f_equal.
  induction a as [|c a IH]; rewrite ?append_cons, ?append_nil; cbn;
    [reflexivity|now rewrite IH].
Qed.

Lemma bytes_of_string_of_bytes (b : list byte) :
  bytes_of_string (string_of_bytes b) = b.
Proof. apply list_byte_of_string_of_list_byte. Qed.

(** ** More on the constructor *)

Section ConstructorMore.

Context {P : Platform}.

(** X1: construction succeeds exactly for the base URLs that are some text
    followed by a slash and that the URL parser accepts; the empty string
    is among those refused. *)
Theorem NewKikClient_succeeds_iff (baseUrl bot key : string)
    (hc : option loc) (h : gmap loc http_Client) :
  (exists c : Client, (NewKikClient baseUrl bot key hc h).1 = (Some c, None))
  <-> (exists p : string, baseUrl = p +:+ "/")
      /\ (exists u : url_URL, url_Parse baseUrl = inl u).
Proof.
  destruct (NewKikClient_unfold baseUrl bot key hc h) as (l & h' & _ & ->).
  rewrite <- HasSuffix_iff. cbn [fst].
  destruct (strings.HasSuffix baseUrl "/"); cbn [negb].
  - destruct (url_Parse baseUrl) as [u|err].
    + split; [intros _; eauto|intros _; eauto].
    + split; [intros [c [=]]|intros [_ [u [=]]]].
  - split; [intros [c [=]]|intros [[=] _]].
Qed.

(** X2: a base URL that ends in a slash and that the URL parser refuses gives
    no client and the parser's own error, unchanged. *)
Theorem NewKikClient_parse_error (baseUrl bot key : string)
    (hc : option loc) (h : gmap loc http_Client) (err : error) :
  strings.HasSuffix baseUrl "/" = true ->
  url_Parse baseUrl = inr err ->
  (NewKikClient baseUrl bot key hc h).1 = (None, Some err).
Proof.
  intros Hs Hp.
  destruct (NewKikClient_unfold baseUrl bot key hc h) as (l & h' & _ & ->).
  now rewrite Hs, Hp.
Qed.

(** X3: the constructor returns a client or an error, never both and never
    neither. *)
Theorem NewKikClient_client_xor_error (baseUrl bot key : string)
    (hc : option loc) (h : gmap loc http_Client) :
  (exists c : Client, (NewKikClient baseUrl bot key hc h).1 = (Some c, None))
  \/ (exists e : error, (NewKikClient baseUrl bot key hc h).1 = (None, Some e)).
Proof.
  destruct (NewKikClient_unfold baseUrl bot key hc h) as (l & h' & _ & ->).
  cbn [fst]. destruct (negb _); [eauto|].
  destruct (url_Parse baseUrl); eauto.
Qed.

(** X4: construction never touches a transport struct that exists: whatever
    the arguments and the outcome, every cell of the heap before the call
    holds the same struct after it; and with a handle passed in, the heap
    is the same heap. *)
Theorem NewKikClient_heap_frame (baseUrl bot key : string)
    (hc : option loc) (h : gmap loc http_Client) (l : loc) (v : http_Client) :
  h !! l = Some v ->
  (NewKikClient baseUrl bot key hc h).2 !! l = Some v
  /\ (is_Some hc -> (NewKikClient baseUrl bot key hc h).2 = h).
Proof.
  intros Hl.
  destruct (NewKikClient_unfold baseUrl bot key hc h) as (l0 & h' & Hh & ->).
  cbn [snd]. destruct hc as [l1|].
  - destruct Hh as [_ ->]. split; [exact Hl|reflexivity].
  - destruct Hh as [_ ->]. split; [|intros [? [=]]].
    destruct (alloc_fresh http_Client_zero h) as [Hfresh ->].
    rewrite lookup_insert_ne; [exact Hl|]. intros Heq.
    rewrite Heq in Hfresh. congruence.
Qed.

(** X5: the API key given to the constructor is the key of the signature
    check: the client that comes out accepts exactly the HMAC-SHA1 digest
    of the body under that key. *)
Theorem NewKikClient_VerifySignature (baseUrl bot key : string)
    (hc : option loc) (h : gmap loc http_Client) (c : Client)
    (e : option error) (s : string) (b : list byte) :
  (NewKikClient baseUrl bot key hc h).1 = (Some c, e) ->
  (VerifySignature c s b = true <-> s = hmac_sha1_hex b key).
Proof.
  destruct (NewKikClient_unfold baseUrl bot key hc h) as (l & h' & _ & ->).
  cbn [fst]. destruct (negb _); [discriminate|].
  destruct (url_Parse baseUrl); [|discriminate].
  intros [= <- <-]. unfold VerifySignature. cbn [ApiKey].
  rewrite computeHmac1_hmac_sha1_hex. apply String.eqb_eq.
Qed.

End ConstructorMore.

(** ** More on the digest *)

Lemma copy_key_zeros (key : list byte) (n : nat) :
  (length key + n <= sha1.BlockSize)%nat ->
  hmac.copy_key (key ++ repeat x00 n) = hmac.copy_key key.
Proof.
  intros Hn. unfold hmac.copy_key.
  rewrite <- app_assoc, length_app, repeat_length, <- repeat_app.
  do 2 f_equal. lia.
Qed.

(** X6: a secret longer than the 64-byte block of SHA-1 signs as the 20 bytes
    of its SHA-1 checksum do. *)
Theorem computeHmac1_long_secret (message : list byte) (secret : string) :
  (64 < String.length secret)%nat ->
  computeHmac1 message secret
  = computeHmac1 message
      (string_of_bytes (sha1.Sum (bytes_of_string secret))).
Proof.
  intros Hlen. unfold computeHmac1, hmac.New.
  rewrite bytes_of_string_of_bytes, sha1_Sum_length, bytes_of_string_length.
  unfold sha1.BlockSize.
  destruct (Nat.ltb_spec 64 (String.length secret)) as [_|?]; [|lia].
  reflexivity.
Qed.

(** X7: a secret shorter than the block signs as the same secret followed by
    zero bytes does, as long as the whole fits the block. *)
Theorem computeHmac1_zero_padded_secret (message : list byte)
    (secret : string) (n : nat) :
  (String.length secret + n <= 64)%nat ->
  computeHmac1 message (secret +:+ string_of_bytes (repeat x00 n))
  = computeHmac1 message secret.
Proof.
  intros Hlen. unfold computeHmac1, hmac.New.
  rewrite bytes_of_string_app, bytes_of_string_of_bytes.
  pose proof (bytes_of_string_length secret) as Hs.
  unfold sha1.BlockSize.
  destruct (Nat.ltb_spec 64 (length (bytes_of_string secret ++ repeat x00 n)))
    as [Hlt|_].
  { rewrite length_app, repeat_length in Hlt. lia. }
  destruct (Nat.ltb_spec 64 (length (bytes_of_string secret))) as [Hlt|_];
    [lia|].
  rewrite copy_key_zeros; [reflexivity|unfold sha1.BlockSize; lia].
Qed.

(** ** More on the request operations *)

Section OperationsMore.

Context {P : Platform} {S : Shapes}.

(** The executor, outcome by outcome of the transport. *)
Lemma do_run {A} `{Unmarshaler A} (req : http.Request) (v : option A)
    (w : World) (n : Net) (r : http.Response + string) :
  Client_Do (transport w) req (net w) = (n, r) ->
  do_ req v w
  = match r with
    | inr cause => ((v, Some (TransportError cause)), submitted w n req)
    | inl resp =>
        if is_2xx (http.StatusCode resp) then
          match v with
          | None => ((None, None), submitted w n req)
          | Some x =>
              (match Unmarshal (http.RespBody resp) x with
               | inl x' => (Some x', None)
               | inr cause => (Some x, Some (DecodeError cause))
               end,
               {| self := self w; heap := heap w; net := n;
                  trace := (trace w ++ [Submitted req])
                           ++ [Decoded (http.RespBody resp)] |})
          end
        else
          ((v, Some (StatusError (http.StatusCode resp) (http.RespBody resp))),
           submitted w n req)
    end.
Proof.
  intros Hdo.
  unfold do_, roundTrip, emit, transport, submitted, mbind, M_bind, mret,
    M_ret in *.
  rewrite Hdo. destruct r as [resp|cause]; [|reflexivity].
  destruct (is_2xx _); [|reflexivity].
  destruct v as [x|]; [|reflexivity].
  cbn. destruct (Unmarshal _ x); reflexivity.
Qed.

(** Opens an operation up to the answer of the transport. *)
Ltac open_call call Hb Hreq Hdo :=
  destruct call; cbn [build] in Hb; try discriminate Hb;
  injection Hb as <-; rewrite newRequest_run in Hreq; cbn [fst] in Hreq;
  unfold exec, SetConfiguration, GetConfiguration, SendMessage,
    BroadcastMessage, GetUser, CreateCode, mbind, M_bind;
  rewrite newRequest_run;
  try match goal with
    | |- context [@Marshal ?A ?M ?v] => destruct (@Marshal A M v)
    end;
  try discriminate Hreq; injection Hreq as <-;
  cbn [mret M_ret receiver];
  unfold with_auth in Hdo; rewrite (do_run _ _ _ _ _ Hdo).

(** X8: an answer outside 200..299 comes back from every request operation as
    the [StatusError] with that status and that body; the request went out
    once and nothing was decoded. *)
Theorem exec_status_error (call : Call) (m : M (http.Request + error))
    (w : World) (req : http.Request) (n : Net) (resp : http.Response) :
  build call = Some m ->
  (m w).1 = inl req ->
  Client_Do (transport w) (with_auth w req) (net w) = (n, inl resp) ->
  (http.StatusCode resp < 200 \/ 299 < http.StatusCode resp)%Z ->
  exec call w
  = (RetError (Some (StatusError (http.StatusCode resp) (http.RespBody resp))),
     submitted w n (with_auth w req)).
Proof.
  intros Hb Hreq Hdo Hcode.
  assert (is_2xx (http.StatusCode resp) = false) as H2.
  { unfold is_2xx. apply andb_false_iff. lia. }
  open_call call Hb Hreq Hdo; rewrite H2; reflexivity.
Qed.


(** X9: a failure of the transport comes back from every request operation as
    the [TransportError] with the transport's cause; the operation does not
    try again. *)
Theorem exec_transport_error (call : Call) (m : M (http.Request + error))
    (w : World) (req : http.Request) (n : Net) (cause : string) :
  build call = Some m ->
  (m w).1 = inl req ->
  Client_Do (transport w) (with_auth w req) (net w) = (n, inr cause) ->
  exec call w
  = (RetError (Some (TransportError cause)), submitted w n (with_auth w req)).
Proof.
  intros Hb Hreq Hdo. open_call call Hb Hreq Hdo; reflexivity.
Qed.

(** X10: on an answer in 200..299 the request went out once; the operations
    with a result hand the body to the decoder once, and [SendMessage] and
    [BroadcastMessage] return nil without looking at the body. *)
Theorem exec_success (call : Call) (m : M (http.Request + error))
    (w : World) (req : http.Request) (n : Net) (resp : http.Response) :
  build call = Some m ->
  (m w).1 = inl req ->
  Client_Do (transport w) (with_auth w req) (net w) = (n, inl resp) ->
  (200 <= http.StatusCode resp <= 299)%Z ->
  trace (exec call w).2
  = trace w ++ Submitted (with_auth w req)
               :: (if decodes call then [Decoded (http.RespBody resp)] else [])
  /\ net (exec call w).2 = n
  /\ (decodes call = false -> (exec call w).1 = RetError None).
Proof.
  intros Hb Hreq Hdo Hcode.
  assert (is_2xx (http.StatusCode resp) = true) as H2.
  { unfold is_2xx. apply andb_true_iff. lia. }
  open_call call Hb Hreq Hdo; rewrite H2; cbn [decodes];
    try match goal with
      | |- context [Unmarshal ?b ?x] => destruct (Unmarshal b x)
      end;
    cbn; rewrite <- ?app_assoc; repeat split; discriminate.
Qed.


(** What a call whose request was built adds to the trace. *)
Lemma exec_trace_built (call : Call) (m : M (http.Request + error))
    (w : World) (req : http.Request) :
  build call = Some m ->
  (m w).1 = inl req ->
  exists tail : list Event,
    trace (exec call w).2 = trace w ++ Submitted (with_auth w req) :: tail
    /\ Forall is_Decoded tail.
Proof.
  intros Hb Hreq.
  destruct (Client_Do (transport w) (with_auth w req) (net w)) as [n r] eqn:Hdo.
  open_call call Hb Hreq Hdo;
    destruct r as [resp|cause];
    try destruct (is_2xx (http.StatusCode resp));
    try match goal with
      | |- context [Unmarshal ?b ?x] => destruct (Unmarshal b x)
      end;
    cbn; rewrite <- ?app_assoc; eexists; (split; [reflexivity|]);
    repeat constructor.
Qed.



(** X11: when the request of an operation is built, the operation hands the
    transport that request with the credentials of the client set on it,
    once, and no other request. *)
Theorem exec_submits_built_request (call : Call)
    (m : M (http.Request + error)) (w : World) (req : http.Request) :
  build call = Some m ->
  (m w).1 = inl req ->
  exists tail : list Event,
    trace (exec call w).2
    = trace w
      ++ Submitted (http.SetBasicAuth req (BotUsername (self w))
                      (ApiKey (self w))) :: tail
    /\ forall req', ~ In (Submitted req') tail.
Proof.
  intros Hb Hreq.
  destruct (exec_trace_built call m w req Hb Hreq) as (tail & Ht & Hd).
  exists tail. split; [exact Ht|]. intros req' Hin.
  exact (proj1 (List.Forall_forall _ _) Hd _ Hin).
Qed.


(** X13: the three operations that return a value return the value with a nil
    error or nil with an error, never a value beside an error. *)
Theorem value_xor_error (w : World) :
  (forall username,
      (exists u, (GetUser username w).1 = (Some u, None))
      \/ (exists e, (GetUser username w).1 = (None, Some e)))
  /\ ((exists c, (GetConfiguration w).1 = (Some c, None))
      \/ (exists e, (GetConfiguration w).1 = (None, Some e)))
  /\ (forall s,
        (exists c, (CreateCode s w).1 = (Some c, None))
        \/ (exists e, (CreateCode s w).1 = (None, Some e))).
Proof.
  repeat split; intros;
    unfold GetUser, GetConfiguration, CreateCode, mbind, M_bind;
    rewrite newRequest_run;
    try match goal with
      | |- context [@Marshal ?A ?M ?v] => destruct (@Marshal A M v)
      end;
    cbn [mret M_ret receiver]; eauto;
    match goal with
    | |- context [do_ ?r ?v ?w] =>
        destruct (Client_Do (transport w) r (net w)) as [n rr] eqn:Hdo;
        rewrite (do_run _ _ _ _ _ Hdo)
    end;
    destruct rr as [resp|cause]; cbn; eauto;
    destruct (is_2xx (http.StatusCode resp)); cbn; eauto;
    match goal with
    | |- context [Unmarshal ?b ?x] => destruct (Unmarshal b x)
    end; cbn; eauto.
Qed.

(** X14: [GetUser] decodes an answer in 200..299 into a new zero [User]: the
    user returned is the decoding of the body into the zero value, and a
    body that does not decode gives nil and the [DecodeError]. *)
Theorem GetUser_decodes_into_zero (username : string) (w : World)
    (req : http.Request) (n : Net) (resp : http.Response) :
  (newRequest "GET" (GetUserUrl +:+ username) (@None nil_type) w).1 = inl req ->
  Client_Do (transport w) (with_auth w req) (net w) = (n, inl resp) ->
  (200 <= http.StatusCode resp <= 299)%Z ->
  (GetUser username w).1
  = match Unmarshal (http.RespBody resp) (zero : User) with
    | inl u => (Some u, None)
    | inr cause => (None, Some (DecodeError cause))
    end.
Proof.
  intros Hreq Hdo Hcode.
  assert (is_2xx (http.StatusCode resp) = true) as H2.
  { unfold is_2xx. apply andb_true_iff. lia. }
  rewrite newRequest_run in Hreq. cbn [fst] in Hreq. injection Hreq as <-.
  unfold GetUser, mbind, M_bind. rewrite newRequest_run.
  cbn [mret M_ret receiver]. unfold with_auth in Hdo.
  rewrite (do_run _ _ _ _ _ Hdo), H2.
  destruct (Unmarshal _ _); reflexivity.
Qed.



Lemma effect_trans (w1 w2 w3 : World) :
  effect w1 w2 -> effect w2 w3 -> effect w1 w3.
Proof.
  intros (Hs1 & Hh1 & new1 & Ht1 & Ha1) (Hs2 & Hh2 & new2 & Ht2 & Ha2).
  repeat split; [congruence|congruence|].
  exists (new1 ++ new2). split.
  - rewrite Ht2, Ht1. now rewrite app_assoc.
  - apply Forall_app. split; [exact Ha1|]. now rewrite <- Hs1.
Qed.

Lemma exec_all_effect (calls : list Call) (w : World) :
  effect w (exec_all calls w).2
  /\ length (exec_all calls w).1 = length calls.
Proof.
  revert w. induction calls as [|c rest IH]; intros w.
  - split; [apply effect_refl|reflexivity].
  - cbn [exec_all]. unfold mbind, M_bind.
    pose proof (exec_effect c w) as Hc.
    destruct (exec c w) as [r w1]. cbn [snd] in Hc.
    destruct (IH w1) as [Hrest Hlen].
    destruct (exec_all rest w1) as [rs w2]. cbn [fst snd] in *.
    split; [exact (effect_trans _ _ _ Hc Hrest)|]. cbn. now rewrite Hlen.
Qed.

(** X16: over a whole session, whatever the calls and whatever the transport
    answers, the client stays as it was and every request of the session
    carries the Basic Auth header of its bot name and API key; each call
    gets its result. *)
Theorem exec_all_authenticated (calls : list Call) (w : World) :
  self (exec_all calls w).2 = self w
  /\ length (exec_all calls w).1 = length calls
  /\ exists new : list Event,
       trace (exec_all calls w).2 = trace w ++ new
       /\ forall req : http.Request,
            In (Submitted req) new ->
            http.Header req !! "Authorization"
            = Some ["Basic " +:+ http.basicAuth (BotUsername (self w))
                                                (ApiKey (self w))].
Proof.
  destruct (exec_all_effect calls w) as [(Hs & _ & new & Ht & Ha) Hlen].
  split; [exact Hs|]. split; [exact Hlen|].
  exists new. split; [exact Ht|]. intros req Hin.
  exact (proj1 (List.Forall_forall _ _) Ha _ Hin).
Qed.

End OperationsMore.

(** ** The further properties at concrete inputs *)

Lemma NewKikClient_parse_error_witness :
  (@NewKikClient Mock.platform ":/" "bot1" "secret" None ∅).1
  = (None, Some (UrlError "missing protocol scheme")).
Proof.
  apply (@NewKikClient_parse_error Mock.platform ":/" "bot1" "secret" None ∅).
  - vm_compute. reflexivity.
  - vm_compute. reflexivity.
Defined.

Lemma NewKikClient_heap_frame_witness :
  (@NewKikClient Mock.platform "https://api.kik.com/" "bot1" "secret" None
     {[ 1%positive := tt ]}).2 !! 1%positive = Some tt
  /\ (is_Some (@None loc) ->
      (@NewKikClient Mock.platform "https://api.kik.com/" "bot1" "secret" None
         {[ 1%positive := tt ]}).2 = {[ 1%positive := tt ]}).
Proof.
  apply (@NewKikClient_heap_frame Mock.platform "https://api.kik.com/" "bot1"
           "secret" None {[ 1%positive := tt ]} 1%positive tt).
  vm_compute. reflexivity.
Defined.

Lemma NewKikClient_VerifySignature_witness :
  @VerifySignature Mock.platform Mock.client
    "5112055c05f944f85755efc5cd8970e194e9f45b" (bytes_of_string "hello") = true
  <-> "5112055c05f944f85755efc5cd8970e194e9f45b"
      = hmac_sha1_hex (bytes_of_string "hello") "secret".
Proof.
  apply (@NewKikClient_VerifySignature Mock.platform "https://api.kik.com/"
           "bot1" "secret" None ∅ Mock.client None).
  vm_compute. reflexivity.
Defined.

Lemma computeHmac1_long_secret_witness :
  computeHmac1 (bytes_of_string "hello") long_secret
  = computeHmac1 (bytes_of_string "hello")
      (string_of_bytes (sha1.Sum (bytes_of_string long_secret))).
Proof.
  apply computeHmac1_long_secret. vm_compute. lia.
Defined.

Lemma computeHmac1_zero_padded_secret_witness :
  computeHmac1 (bytes_of_string "hello")
    ("secret" +:+ string_of_bytes (repeat x00 2))
  = computeHmac1 (bytes_of_string "hello") "secret".
Proof.
  apply computeHmac1_zero_padded_secret. vm_compute. lia.
Defined.

Lemma exec_status_error_witness :
  (@exec Mock.platform Mock.shapes (@CallCreateCode Mock.shapes "scan")
     Mock.world).1
  = RetError (Some (StatusError 404 (bytes_of_string "Not Found"))).
Proof.
  refine (f_equal fst
            (@exec_status_error Mock.platform Mock.shapes
               (@CallCreateCode Mock.shapes "scan") _ Mock.world _ 1%nat
               {| http.StatusCode := 404;
                  http.RespBody := bytes_of_string "Not Found" |}
               eq_refl _ _ _)).
  - vm_compute. reflexivity.
  - vm_compute. reflexivity.
  - right. cbn. lia.
Defined.

Lemma exec_transport_error_witness :
  (@exec Mock.platform Mock.shapes (@CallGetUser Mock.shapes "alice")
     world_without_transport).1
  = RetError (Some (TransportError "no transport")).
Proof.
  refine (f_equal fst
            (@exec_transport_error Mock.platform Mock.shapes
               (@CallGetUser Mock.shapes "alice") _ world_without_transport
               _ 0%nat "no transport" eq_refl _ _)).
  - vm_compute. reflexivity.
  - vm_compute. reflexivity.
Defined.

Lemma exec_success_witness :
  exists req : http.Request,
    trace (@exec Echo.platform Mock.shapes
             (@CallSendMessage Mock.shapes (make_slice ["hi"])) Echo.world).2
    = [Submitted req]
    /\ (@exec Echo.platform Mock.shapes
          (@CallSendMessage Mock.shapes (make_slice ["hi"])) Echo.world).1
       = RetError None.
Proof.
  eexists.
  destruct (@exec_success Echo.platform Mock.shapes
              (@CallSendMessage Mock.shapes (make_slice ["hi"])) _ Echo.world _ 1%nat
              {| http.StatusCode := 200;
                 http.RespBody :=
                   bytes_of_string
                     ("{" +:+ dquote +:+ "messages" +:+ dquote +:+ ":[hi]}") |}
              eq_refl ltac:(vm_compute; reflexivity)
              ltac:(vm_compute; reflexivity) ltac:(cbn; lia))
    as (Ht & _ & Hr).
  split; [exact Ht|exact (Hr eq_refl)].
Defined.

Lemma exec_submits_built_request_witness :
  exists (req : http.Request) (tail : list Event),
    trace (@exec Mock.platform Mock.shapes (@CallGetUser Mock.shapes "alice")
             Mock.world).2
    = trace Mock.world
      ++ Submitted (http.SetBasicAuth req "bot1" "secret") :: tail
    /\ forall req', ~ In (Submitted req') tail.
Proof.
  eexists.
  apply (@exec_submits_built_request Mock.platform Mock.shapes
           (@CallGetUser Mock.shapes "alice") _ Mock.world _ eq_refl).
  vm_compute. reflexivity.
Defined.

Lemma GetUser_decodes_into_zero_witness :
  (@GetUser Mock.platform Mock.shapes "alice" Mock.world).1
  = (Some Mock.user_alice, None).
Proof.
  refine (@GetUser_decodes_into_zero Mock.platform Mock.shapes "alice"
            Mock.world _ 1%nat
            {| http.StatusCode := 200;
               http.RespBody := bytes_of_string Mock.user_alice |} _ _ _).
  - vm_compute. reflexivity.
  - vm_compute. reflexivity.
  - cbn. lia.
Defined.


(** A session of three calls on the first platform: a user lookup that is
    answered, a code creation that is refused with 404, and a signature
    check. *)
Example exec_all_mock :
  (@exec_all Mock.platform Mock.shapes
     [@CallGetUser Mock.shapes "alice"; @CallCreateCode Mock.shapes "scan";
      @CallVerifySignature Mock.shapes
        "5112055c05f944f85755efc5cd8970e194e9f45b" (bytes_of_string "hello")]
     Mock.world).1
  = [RetError None;
     RetError (Some (StatusError 404 (bytes_of_string "Not Found")));
     RetBool true].
Proof. vm_compute. reflexivity. Qed.
